(** * GitHub profile / repository screens: fetch, aggregate, sort, format

    Shallow embedding of the two tab screens of the application,
    [app/(tabs)/index.tsx] (profile screen) and [app/(tabs)/projects.tsx]
    (all-repositories screen with its detail modal), and the properties
    of their fetch-and-aggregate logic. *)

From Stdlib Require Import ZArith List String Bool Lia Permutation Sorted.
From Stdlib Require Import Ascii DecimalString DecimalZ DecimalPos.
Import ListNotations.

Local Open Scope Z_scope.

(** ** The fragment of JavaScript the screens rely on *)

Module Js.

(** A property read off a decoded JSON object: the property may be
    absent ([undefined]), [null], or hold a value of the declared type. *)
Inductive Nullable (A : Type) : Type :=
| undefined
| null
| value (a : A).

Arguments undefined {A}.
Arguments null {A}.
Arguments value {A} a.

(** Numbers.  A number is a binary64 value; the counts the screens
    compute with are integers, so a finite number is given by an integer,
    beside [NaN] (arithmetic on an absent property produces it) and the
    two infinities (a sum that overflows).  The sign of zero is not kept:
    no screen can tell -0 from 0. *)
Inductive Number : Type :=
| NaN
| Num (z : Z)
| Infinity (positive : bool).

(** Every integer of magnitude up to 2^53 is a binary64 value. *)
Definition MAX_EXACT : Z := 2 ^ 53.

(** The magnitude at which rounding gives an infinity. *)
Definition OVERFLOW : Z := 2 ^ 1024.

(** The binary64 value nearest to the integer [z], ties going to the even
    significand: up to [MAX_EXACT] it is [z] itself; beyond, [z] is
    rounded to 53 significant bits, and to an infinity when the rounded
    magnitude reaches [OVERFLOW]. *)
Definition round64 (z : Z) : Number :=
  let m := Z.abs z in
  if m <=? MAX_EXACT then Num z
  else
    let ulp := 2 ^ (Z.log2 m - 52) in
    let q := m / ulp in
    let r := m mod ulp in
    let q' :=
      if 2 * r <? ulp then q
      else if ulp <? 2 * r then q + 1
      else if Z.even q then q else q + 1 in
    let rounded := q' * ulp in
    if OVERFLOW <=? rounded then Infinity (0 <? z)
    else Num (Z.sgn z * rounded).

(** [ToNumber] on a numeric property: [undefined] is [NaN], [null] is 0. *)
Definition ToNumber (v : Nullable Z) : Number :=
  match v with
  | undefined => NaN
  | null => Num 0
  | value z => Num z
  end.

(** [a + b] on numbers: the exact sum, rounded. *)
Definition add (a b : Number) : Number :=
  match a, b with
  | NaN, _ | _, NaN => NaN
  | Num x, Num y => round64 (x + y)
  | Infinity s, Num _ | Num _, Infinity s => Infinity s
  | Infinity s, Infinity s' => if Bool.eqb s s' then Infinity s else NaN
  end.

(** [-a]. *)
Definition negate (a : Number) : Number :=
  match a with
  | NaN => NaN
  | Num x => Num (- x)
  | Infinity s => Infinity (negb s)
  end.

(** [a - b] on numbers. *)
Definition sub (a b : Number) : Number := add a (negate b).

(** [ToBoolean] on a numeric property and on a string property. *)
Definition truthy_number (v : Nullable Z) : bool :=
  match v with
  | value z => negb (z =? 0)
  | _ => false
  end.

Definition truthy_string (v : Nullable string) : bool :=
  match v with
  | value s => negb (String.eqb s EmptyString)
  | _ => false
  end.

(** [v || 0] on a numeric property: the left operand when it is truthy,
    the number 0 otherwise.  A truthy numeric property is a number. *)
Definition or_zero (v : Nullable Z) : Z :=
  match v with
  | value z => if truthy_number v then z else 0
  | _ => 0
  end.

(** [o?.p]: [undefined] when [o] is [null], the property otherwise. *)
Definition optional_chain {O A : Type}
    (o : option O) (p : O -> Nullable A) : Nullable A :=
  match o with
  | None => undefined
  | Some x => p x
  end.

Section Array.
Context {A : Type}.

(** [arr.reduce(f, init)]: left to right, starting from [init]. *)
Definition reduce {B : Type} (f : B -> A -> B) (init : B) (arr : list A) : B :=
  fold_left f arr init.

(** [arr.slice(start, end)] for non-negative indices. *)
Definition slice (start stop : nat) (arr : list A) : list A :=
  firstn (stop - start) (skipn start arr).

(** [arr.sort(comparefn)].  The comparator's result goes through
    [SortCompare]: a [NaN] result counts as 0, and only the sign of the
    result is used.  The engine's algorithm is its own; ECMAScript
    requires it to be stable, and it is modelled by the stable insertion
    sort: an element is placed before the first later element it does
    not have to follow.  For a comparator that orders the elements
    consistently (here: no star count is absent) every stable sort
    returns this array.  For a comparator that does not, ECMAScript
    leaves the order to the engine: the array below is then one
    possible order, and what holds of every engine is that the result
    is a permutation of the input.  The call reorders the array in place
    and returns that same array; both screens use only the returned
    array afterwards. *)
Variable comparefn : A -> A -> Number.

Definition SortCompare (x y : A) : Z :=
  match comparefn x y with
  | NaN => 0
  | Num v => v
  | Infinity true => 1
  | Infinity false => -1
  end.

Fixpoint insert (x : A) (arr : list A) : list A :=
  match arr with
  | [] => [x]
  | y :: rest =>
      if SortCompare x y <=? 0 then x :: y :: rest
      else y :: insert x rest
  end.

Fixpoint sort (arr : list A) : list A :=
  match arr with
  | [] => []
  | x :: rest => insert x (sort rest)
  end.
End Array.

(** A [Date] object: its time value in milliseconds, or the Invalid Date. *)
Definition Date : Type := option Z.

(** [isValid(date)] of date-fns on a [Date] object. *)
Definition isValid (d : Date) : bool :=
  match d with
  | Some _ => true
  | None => false
  end.

(** [new Date(v)] on a string property.  A string is parsed by the
    engine's date parser [parse]; any other argument goes through
    [ToNumber]: [null] is time 0, [undefined] is the Invalid Date. *)
Definition new_Date (parse : string -> Date) (v : Nullable string) : Date :=
  match v with
  | undefined => None
  | null => Some 0
  | value s => parse s
  end.

(** [v || fallback] on a string property and a string: the property when
    it is truthy, the fallback otherwise. *)
Definition or_else (v : Nullable string) (fallback : string) : string :=
  match v with
  | value s => if truthy_string v then s else fallback
  | _ => fallback
  end.

(** [n.toString()] on an integer of magnitude below 10^21: its decimal
    digits, after a minus sign when it is negative.  (From 10^21 on the
    engine prints an exponent; repository ids are far below.) *)
Definition Number_toString (z : Z) : string :=
  NilZero.string_of_int (Z.to_int z).

(** An object literal whose properties are strings: its own properties in
    source order. *)
Definition ObjectLiteral : Type := list (string * string).

Fixpoint own_property (key : string) (obj : ObjectLiteral) : option string :=
  match obj with
  | [] => None
  | (k, v) :: rest => if String.eqb k key then Some v else own_property key rest
  end.

(** What [obj[key]] reads: an own property, else what [Object.prototype]
    defines under that name (a function or an object, never a string),
    else [undefined].  [inherited] tells the names the engine's
    [Object.prototype] defines. *)
Inductive Property : Type :=
| Own (s : string)
| Inherited
| Missing.

Definition get_property (inherited : string -> bool) (obj : ObjectLiteral)
    (key : string) : Property :=
  match own_property key obj with
  | Some v => Own v
  | None => if inherited key then Inherited else Missing
  end.

(** [a || b] on two property reads: inherited functions and objects are
    truthy, as are non-empty strings. *)
Definition property_or (a b : Property) : Property :=
  match a with
  | Own s => if String.eqb s EmptyString then b else a
  | Inherited => a
  | Missing => b
  end.

End Js.

Import Js.

(** ** Completions and the state-and-exception monad of an event handler *)

Inductive Completion (A : Type) : Type :=
| Normal (a : A)
| Throw (message : string).

Arguments Normal {A} a.
Arguments Throw {A} message.

(** A computation reads and updates the component state [S] and either
    completes normally or throws; state updates made before a throw stay. *)
Definition M (S A : Type) : Type := S -> Completion A * S.

Definition ret {S A : Type} (a : A) : M S A := fun st => (Normal a, st).

Definition bind {S A B : Type} (m : M S A) (k : A -> M S B) : M S B :=
  fun st =>
    match m st with
    | (Normal a, st') => k a st'
    | (Throw e, st') => (Throw e, st')
    end.

Definition throw {S A : Type} (message : string) : M S A :=
  fun st => (Throw message, st).

Definition modify {S : Type} (f : S -> S) : M S unit :=
  fun st => (Normal tt, f st).

(** [try { body } catch (err) { handler } finally { finalizer }]. *)
Definition try_catch_finally {S : Type}
    (body : M S unit) (handler : string -> M S unit) (finalizer : M S unit)
    : M S unit :=
  fun st =>
    match body st with
    | (Normal _, st') => finalizer st'
    | (Throw e, st') =>
        match handler e st' with
        | (Normal _, st'') => finalizer st''
        | (Throw e', st'') =>
            match finalizer st'' with
            | (Normal _, st''') => (Throw e', st''')
            | thrown => thrown
            end
        end
    end.

(** The state a computation leaves behind. *)
Definition exec {S A : Type} (m : M S A) (st : S) : S := snd (m st).

Declare Scope js_scope.
Delimit Scope js_scope with js.
Notation "x <- m ;; k" := (bind m (fun x => k))
  (at level 61, m at next level, right associativity) : js_scope.
Notation "m ;; k" := (bind m (fun _ => k))
  (at level 61, right associativity) : js_scope.

(** ** HTTP *)

(** The outcome of [fetch(url)]: the promise rejects (no response at all),
    or resolves to a response with its [ok] flag and a body that
    [response.json()] either decodes or rejects as malformed. *)
Inductive Fetched (A : Type) : Type :=
| Rejected
| Resolved (ok : bool) (body : option A).

Arguments Rejected {A}.
Arguments Resolved {A} ok body.

Record Response (A : Type) : Type := mkResponse {
  ok : bool;
  body : option A
}.

Arguments mkResponse {A}.
Arguments ok {A}.
Arguments body {A}.

(** [await fetch(url)]. *)
Definition await_fetch {S A : Type} (f : Fetched A) : M S (Response A) :=
  match f with
  | Rejected => throw "Network request failed"
  | Resolved o b => ret (mkResponse o b)
  end.

(** [await Promise.all([fetch(u1), fetch(u2)])]: both requests are issued,
    and the first rejection rejects the pair. *)
Definition await_all2 {S A B : Type} (f1 : Fetched A) (f2 : Fetched B)
    : M S (Response A * Response B) :=
  match f1, f2 with
  | Resolved o1 b1, Resolved o2 b2 => ret (mkResponse o1 b1, mkResponse o2 b2)
  | _, _ => throw "Network request failed"
  end.

(** [await response.json()]. *)
Definition await_json {S A : Type} (r : Response A) : M S A :=
  match body r with
  | Some a => ret a
  | None => throw "JSON Parse error"
  end.

(** ** Data model *)

(** [interface GitHubProfile] of the profile screen. *)
Record GitHubProfile : Type := mkProfile {
  avatar_url : Nullable string;
  profile_name : Nullable string;
  bio : Nullable string;
  public_repos : Nullable Z;
  followers : Nullable Z
}.

(** [interface Repository].  The all-repositories screen declares all the
    fields below and the profile screen the six it uses; both decode the
    same endpoint.  The interfaces are erased at run time: a property is
    whatever the API sent, possibly absent. *)
Record Repository : Type := mkRepository {
  id : Nullable Z;
  name : Nullable string;
  description : Nullable string;
  stargazers_count : Nullable Z;
  language : Nullable string;
  created_at : Nullable string;
  updated_at : Nullable string;
  html_url : Nullable string;
  forks_count : Nullable Z;
  open_issues_count : Nullable Z;
  topics : Nullable (list string)
}.

(** [formatDistanceToNow(date)] of date-fns: the distance between [date]
    and the clock in words, given by [distance] on the time value; on the
    Invalid Date the library throws a [RangeError]. *)
Definition formatDistanceToNow (distance : Z -> string) (date : Date)
    : Completion string :=
  match date with
  | Some t => Normal (distance t)
  | None => Throw "Invalid time value"
  end.

(** What a screen function returns: one of its three views. *)
Inductive View (Content : Type) : Type :=
| LoadingView
| ErrorView (message : string)
| ContentView (content : Content).

Arguments LoadingView {Content}.
Arguments ErrorView {Content} message.
Arguments ContentView {Content} content.

(** [if (error)] on the error state: set and not the empty string. *)
Definition error_shown (error : option string) : option string :=
  match error with
  | Some message => if String.eqb message EmptyString then None else Some message
  | None => None
  end.

(** ** The profile screen, [app/(tabs)/index.tsx] *)

Module ProfileScreen.

Record State : Type := mkState {
  profile : option GitHubProfile;
  topRepos : list Repository;
  totalStars : Number;
  loading : bool;
  error : option string
}.

(** The [useState] initial values. *)
Definition initial : State := mkState None [] (Num 0) true None.

Definition setProfile (v : option GitHubProfile) : M State unit :=
  modify (fun st => mkState v (topRepos st) (totalStars st) (loading st) (error st)).
Definition setTopRepos (v : list Repository) : M State unit :=
  modify (fun st => mkState (profile st) v (totalStars st) (loading st) (error st)).
Definition setTotalStars (v : Number) : M State unit :=
  modify (fun st => mkState (profile st) (topRepos st) v (loading st) (error st)).
Definition setLoading (v : bool) : M State unit :=
  modify (fun st => mkState (profile st) (topRepos st) (totalStars st) v (error st)).
Definition setError (v : option string) : M State unit :=
  modify (fun st => mkState (profile st) (topRepos st) (totalStars st) (loading st) v).

(** [(a, b) => b.stargazers_count - a.stargazers_count] *)
Definition compareStars (a b : Repository) : Number :=
  sub (ToNumber (stargazers_count b)) (ToNumber (stargazers_count a)).

(** [(acc, repo) => acc + repo.stargazers_count] *)
Definition addStars (acc : Number) (repo : Repository) : Number :=
  add acc (ToNumber (stargazers_count repo)).

Definition fetchGitHubData
    (profileFetch : Fetched GitHubProfile)
    (reposFetch : Fetched (list Repository)) : M State unit :=
  (try_catch_finally
     (responses <- await_all2 profileFetch reposFetch ;;
      let profileResponse := fst responses in
      let reposResponse := snd responses in
      (if negb (ok profileResponse) || negb (ok reposResponse)
       then throw "Failed to fetch GitHub data"
       else ret tt) ;;
      profileData <- await_json profileResponse ;;
      reposData <- await_json reposResponse ;;
      let stars := reduce addStars (Num 0) reposData in
      setTotalStars stars ;;
      let sortedRepos := slice 0 3 (sort compareStars reposData) in
      setProfile (Some profileData) ;;
      setTopRepos sortedRepos)
     (fun err => setError (Some "Failed to load profile data"))
     (setLoading false))%js%string.

(** The view the screen function selects. *)
Definition view (st : State) : View State :=
  if loading st then LoadingView
  else match error_shown (error st) with
       | Some message => ErrorView message
       | None => ContentView st
       end.

Section Dates.
Variable parse : string -> Date.
Variable distance : Z -> string.

(** [Created {formatDistanceToNow(new Date(repo.created_at))} ago] *)
Definition createdText (repo : Repository) : Completion string :=
  match formatDistanceToNow distance (new_Date parse (created_at repo)) with
  | Normal s => Normal ("Created " ++ s ++ " ago")%string
  | Throw e => Throw e
  end.

(** [Updated {formatDistanceToNow(new Date(repo.updated_at))} ago] *)
Definition updatedText (repo : Repository) : Completion string :=
  match formatDistanceToNow distance (new_Date parse (updated_at repo)) with
  | Normal s => Normal ("Updated " ++ s ++ " ago")%string
  | Throw e => Throw e
  end.
End Dates.

End ProfileScreen.

(** ** The all-repositories screen, [app/(tabs)/projects.tsx] *)

Module ProjectsScreen.

Record State : Type := mkState {
  repositories : list Repository;
  selectedRepo : option Repository;
  loading : bool;
  error : option string
}.

(** The [useState] initial values. *)
Definition initial : State := mkState [] None true None.

Definition setRepositories (v : list Repository) : M State unit :=
  modify (fun st => mkState v (selectedRepo st) (loading st) (error st)).
Definition setSelectedRepo (v : option Repository) : M State unit :=
  modify (fun st => mkState (repositories st) v (loading st) (error st)).
Definition setLoading (v : bool) : M State unit :=
  modify (fun st => mkState (repositories st) (selectedRepo st) v (error st)).
Definition setError (v : option string) : M State unit :=
  modify (fun st => mkState (repositories st) (selectedRepo st) (loading st) v).

(** [(a, b) => b.stargazers_count - a.stargazers_count] *)
Definition compareStars (a b : Repository) : Number :=
  sub (ToNumber (stargazers_count b)) (ToNumber (stargazers_count a)).

Definition fetchRepositories (reposFetch : Fetched (list Repository))
    : M State unit :=
  (try_catch_finally
     (response <- await_fetch reposFetch ;;
      (if negb (ok response)
       then throw "Failed to fetch repositories"
       else ret tt) ;;
      data <- await_json response ;;
      let sortedData := sort compareStars data in
      setRepositories sortedData)
     (fun err => setError (Some "Failed to load repositories"))
     (setLoading false))%js%string.

(** The view the screen function selects. *)
Definition view (st : State) : View State :=
  if loading st then LoadingView
  else match error_shown (error st) with
       | Some message => ErrorView message
       | None => ContentView st
       end.

Section Dates.
Variable parse : string -> Date.
Variable distance : Z -> string.

(** The helper that formats dates safely. *)
Definition formatDate (dateString : Nullable string) : Completion string :=
  if negb (truthy_string dateString) then Normal "N/A"%string
  else
    let date := new_Date parse dateString in
    if isValid date
    then match formatDistanceToNow distance date with
         | Normal s => Normal (s ++ " ago")%string
         | Throw e => Throw e
         end
    else Normal "N/A"%string.

(** [Created {formatDate(item.created_at)}] in a list row. *)
Definition createdText (item : Repository) : Completion string :=
  match formatDate (created_at item) with
  | Normal s => Normal ("Created " ++ s)%string
  | Throw e => Throw e
  end.

(** [Updated {formatDate(item.updated_at)}] in a list row. *)
Definition updatedText (item : Repository) : Completion string :=
  match formatDate (updated_at item) with
  | Normal s => Normal ("Updated " ++ s)%string
  | Throw e => Throw e
  end.

(** [Created {formatDate(selectedRepo?.created_at)}] in the modal. *)
Definition modalCreatedText (selected : option Repository) : Completion string :=
  match formatDate (optional_chain selected created_at) with
  | Normal s => Normal ("Created " ++ s)%string
  | Throw e => Throw e
  end.

(** [Last updated {formatDate(selectedRepo?.updated_at)}] in the modal. *)
Definition modalUpdatedText (selected : option Repository) : Completion string :=
  match formatDate (optional_chain selected updated_at) with
  | Normal s => Normal ("Last updated " ++ s)%string
  | Throw e => Throw e
  end.
End Dates.

(** The three numbers of the modal's stats grid:
    [selectedRepo?.stargazers_count || 0], and the same for
    [forks_count] and [open_issues_count]. *)
Definition modalStars (selected : option Repository) : Z :=
  or_zero (optional_chain selected stargazers_count).
Definition modalForks (selected : option Repository) : Z :=
  or_zero (optional_chain selected forks_count).
Definition modalIssues (selected : option Repository) : Z :=
  or_zero (optional_chain selected open_issues_count).

(** [const languageColors] *)
Definition languageColors : ObjectLiteral :=
  [ ("JavaScript", "#F7DF1E");
    ("TypeScript", "#3178C6");
    ("Python", "#3776AB");
    ("Java", "#B07219");
    ("C++", "#F34B7D");
    ("Ruby", "#CC342D");
    ("default", "#A0AEC0") ]%string.

(** [languageColors[item.language] || languageColors.default], the
    background colour of the language dot. *)
Definition languageDotColor (inherited : string -> bool) (language : string)
    : Property :=
  property_or (get_property inherited languageColors language)
              (get_property inherited languageColors "default"%string).

(** [item.language && (... the dot and the language name ...)]: the dot is
    rendered for a truthy language only. *)
Definition languageDot (inherited : string -> bool) (item : Repository)
    : option Property :=
  match language item with
  | value l => if truthy_string (language item)
               then Some (languageDotColor inherited l) else None
  | _ => None
  end.

(** [keyExtractor={(item) => item.id.toString()}] *)
Definition keyExtractor (item : Repository) : Completion string :=
  match id item with
  | value z => Normal (Number_toString z)
  | _ => Throw "Cannot read property 'toString' of undefined"%string
  end.

(** [visible={!!selectedRepo}] *)
Definition modalVisible (selected : option Repository) : bool :=
  match selected with
  | Some _ => true
  | None => false
  end.

(** [selectedRepo?.description || 'No description available'] *)
Definition modalDescription (selected : option Repository) : string :=
  or_else (optional_chain selected description) "No description available"%string.

(** The "View on GitHub" button: the URL handed to [Linking.openURL], if
    any: [if (selectedRepo?.html_url) Linking.openURL(selectedRepo.html_url)]. *)
Definition viewOnGithub (selected : option Repository) : option string :=
  match optional_chain selected html_url with
  | value u => if truthy_string (value u) then Some u else None
  | _ => None
  end.

(** [onPress={() => setSelectedRepo(item)}] of a list row. *)
Definition pressRepository (item : Repository) : M State unit :=
  setSelectedRepo (Some item).

(** [() => setSelectedRepo(null)], the modal's close button and its
    [onRequestClose]. *)
Definition closeModal : M State unit :=
  setSelectedRepo None.

(** What the user can do on the screen.  The list rows (one per entry of
    [repositories], through the [FlatList]) and the modal exist in the
    content view only; in the loading and error views there is nothing
    to press. *)
Inductive Event : Type :=
| Press (index : nat)
| Close
| OpenOnGithub.

Definition handle (e : Event) (st : State) : State :=
  match view st with
  | ContentView _ =>
      match e with
      | Press index =>
          match nth_error (repositories st) index with
          | Some item => exec (pressRepository item) st
          | None => st
          end
      | Close => exec closeModal st
      | OpenOnGithub => st
      end
  | _ => st
  end.

(** The URL an event hands to [Linking.openURL], if any. *)
Definition opened (e : Event) (st : State) : option string :=
  match view st, e with
  | ContentView _, OpenOnGithub => viewOnGithub (selectedRepo st)
  | _, _ => None
  end.

(** The URLs opened while [events] are handled from [st], in order. *)
Fixpoint openedURLs (events : list Event) (st : State) : list string :=
  match events with
  | [] => []
  | e :: rest =>
      match opened e st with
      | Some url => url :: openedURLs rest (handle e st)
      | None => openedURLs rest (handle e st)
      end
  end.

(** A mounted screen: the fetch started by the mount effect completes with
    [reposFetch], then the user's events are handled in turn. *)
Definition session (reposFetch : Fetched (list Repository)) (events : list Event)
    : State :=
  fold_left (fun st e => handle e st) events
            (exec (fetchRepositories reposFetch) initial).

(** The URLs a mounted screen opens. *)
Definition sessionURLs (reposFetch : Fetched (list Repository)) (events : list Event)
    : list string :=
  openedURLs events (exec (fetchRepositories reposFetch) initial).

End ProjectsScreen.

(** ** The root layout, [app/_layout.tsx] *)

Module RootLayout.

(** [fontError] is an [Error] object or [null]. *)
Definition truthy_error (fontError : option string) : bool :=
  match fontError with
  | Some _ => true
  | None => false
  end.

(** [onLayoutRootView]: [if (fontsLoaded || fontError) await
    SplashScreen.hideAsync()]; whether the splash screen is asked to hide. *)
Definition onLayoutRootView (fontsLoaded : bool) (fontError : option string) : bool :=
  fontsLoaded || truthy_error fontError.

(** [if (!fontsLoaded && !fontError) return null]: whether the layout
    renders its navigation stack. *)
Definition rendersStack (fontsLoaded : bool) (fontError : option string) : bool :=
  if negb fontsLoaded && negb (truthy_error fontError) then false else true.

End RootLayout.

(** ** Vocabulary of the properties *)

(** A repository whose star count is a number, as the interface declares. *)
Definition counted (r : Repository) : Prop :=
  exists z : Z, stargazers_count r = value z.

(** [a] may precede [b] in a list that is descending by star count. *)
Definition stars_ge (a b : Repository) : Prop :=
  exists za zb : Z,
    stargazers_count a = value za /\ stargazers_count b = value zb /\ zb <= za.

(** A request that does not deliver decoded data: the fetch rejects, the
    response status is not a success, or the body is not valid JSON. *)
Inductive failure {A : Type} : Fetched A -> Prop :=
| fetch_rejects : failure Rejected
| status_not_ok (b : option A) : failure (Resolved false b)
| json_malformed : failure (Resolved true None).

(** A request that delivers [data]. *)
Definition success {A : Type} (data : A) : Fetched A := Resolved true (Some data).

(** A numeric property that is missing, null or zero. *)
Definition missing_or_zero (v : Nullable Z) : Prop :=
  v = undefined \/ v = null \/ v = value 0.

(** A repository with exactly [z] stars. *)
Definition has_stars (z : Z) (r : Repository) : bool :=
  match stargazers_count r with
  | value z' => z' =? z
  | _ => false
  end.

(** The stars a repository adds to the total: a null count adds 0. *)
Definition star_value (r : Repository) : Z :=
  match stargazers_count r with
  | value z => z
  | _ => 0
  end.

(** A repository whose star count is not absent: a number, or null. *)
Definition star_count_present (r : Repository) : bool :=
  match stargazers_count r with
  | undefined => false
  | _ => true
  end.

(** The sum of the star counts of a list, and the sum of their
    magnitudes. *)
Definition stars_sum (repos : list Repository) : Z :=
  fold_right (fun r s => star_value r + s) 0 repos.

Definition stars_magnitude (repos : list Repository) : Z :=
  fold_right (fun r s => Z.abs (star_value r) + s) 0 repos.

(** [a] may precede [b] in a list that is descending by star count, a
    null count ranking as 0. *)
Definition ranks_ge (a b : Repository) : Prop :=
  star_count_present a = true /\ star_count_present b = true /\
  star_value b <= star_value a.

(** A list is descending by star count: of two positions, the earlier
    holds at least as many stars as the later. *)
Definition descending (repos : list Repository) : Prop :=
  forall (i j : nat) (a b : Repository),
    (i < j)%nat -> nth_error repos i = Some a -> nth_error repos j = Some b ->
    ranks_ge a b.

(** A date property the screens cannot format: missing, null, empty or
    rejected by the date parser. *)
Definition unusable_date (parse : string -> Date) (v : Nullable string) : Prop :=
  v = undefined \/ v = null \/ v = value EmptyString \/
  exists s : string, v = value s /\ parse s = None.

(** The names [Object.prototype] defines in current engines. *)
Definition sampleInherited (key : string) : bool :=
  existsb (String.eqb key)
    [ "constructor"; "hasOwnProperty"; "isPrototypeOf"; "propertyIsEnumerable";
      "toLocaleString"; "toString"; "valueOf"; "__proto__";
      "__defineGetter__"; "__defineSetter__";
      "__lookupGetter__"; "__lookupSetter__" ]%string.

(** A date parser for the samples: it accepts one timestamp. *)
Definition sampleParse (s : string) : Date :=
  if String.eqb s "2024-01-01T00:00:00Z" then Some 1704067200000 else None.

(** A distance formatter for the samples. *)
Definition sampleDistance (t : Z) : string := "10 months"%string.

(** ** Sample data *)

Definition sampleProfile : GitHubProfile :=
  mkProfile (value "https://avatars.githubusercontent.com/u/1"%string)
            (value "Idan Dayani"%string) null (value 4) (value 10).

Definition sampleRepo (n : string) (stars : Nullable Z) (created : Nullable string)
    : Repository :=
  mkRepository (value 1) (value n) null stars (value "TypeScript"%string)
               created created
               (value "https://github.com/idanDayani"%string)
               (value 0) (value 0) (value []).

Definition sampleRepos : list Repository :=
  [ sampleRepo "alpha" (value 5) (value "2024-01-01T00:00:00Z"%string);
    sampleRepo "beta" (value 0) (value "2024-02-01T00:00:00Z"%string);
    sampleRepo "gamma" (value 12) (value "2024-03-01T00:00:00Z"%string);
    sampleRepo "delta" (value 5) (value "2024-04-01T00:00:00Z"%string) ]%string.

(** Three repositories, the second without a star count. *)
Definition absentRepos : list Repository :=
  [ sampleRepo "one" (value 1) null;
    sampleRepo "none" undefined null;
    sampleRepo "five" (value 5) null ]%string.

(** Two repositories whose counts add up to 2^53 + 1. *)
Definition hugeRepos : list Repository :=
  [ sampleRepo "huge" (value 9007199254740992) null;
    sampleRepo "one" (value 1) null ]%string.

(** * Properties *)

(** ** Numbers *)

Lemma round64_exact (z : Z) :
  Z.abs z <= MAX_EXACT -> round64 z = Num z.
Proof.
  intros H. unfold round64.
  destruct (Z.leb_spec (Z.abs z) MAX_EXACT); [reflexivity|lia].
Qed.


(** Rounding keeps the sign: what [SortCompare] reads off a rounded
    difference is what the exact difference says. *)
Lemma round64_sign (d : Z) :
  (match round64 d with
   | NaN => 0
   | Num v => v
   | Infinity true => 1
   | Infinity false => -1
   end <=? 0) = (d <=? 0).
Proof.
  unfold round64.
  destruct (Z.leb_spec (Z.abs d) MAX_EXACT) as [_|Hbig]; [reflexivity|].
  assert (Hpos : 0 < MAX_EXACT) by (unfold MAX_EXACT; now apply Z.pow_pos_nonneg).
  set (m := Z.abs d) in *.
  assert (Hlog : 53 <= Z.log2 m).
  { apply Z.log2_le_pow2; [lia|]. unfold MAX_EXACT in Hbig. lia. }
  set (ulp := 2 ^ (Z.log2 m - 52)).
  assert (Hulp : 0 < ulp) by (apply Z.pow_pos_nonneg; lia).
  assert (Hle : ulp <= m).
  { transitivity (2 ^ Z.log2 m).
    - apply Z.pow_le_mono_r; lia.
    - apply Z.log2_spec. lia. }
  assert (Hq : 1 <= m / ulp) by (apply Z.div_le_lower_bound; lia).
  set (q := m / ulp) in *.
  set (q' := if 2 * (m mod ulp) <? ulp then q
             else if ulp <? 2 * (m mod ulp) then q + 1
             else if Z.even q then q else q + 1).
  assert (Hq' : 1 <= q').
  { subst q'.
    destruct (2 * (m mod ulp) <? ulp); [lia|].
    destruct (ulp <? 2 * (m mod ulp)); [lia|].
    destruct (Z.even q); lia. }
  assert (Hr : 0 < q' * ulp) by nia.
  destruct (OVERFLOW <=? q' * ulp).
  - destruct (Z.ltb_spec 0 d), (Z.leb_spec d 0); try reflexivity; lia.
  - destruct (Z.leb_spec d 0) as [Hd|Hd].
    + apply Z.leb_le. assert (Z.sgn d = -1) by (apply Z.sgn_neg; lia). nia.
    + apply Z.leb_gt. assert (Z.sgn d = 1) by (apply Z.sgn_pos; lia). nia.
Qed.

(** How the comparator of the screens orders two star counts. *)
Lemma SortCompare_stars (x y : Repository) :
  (SortCompare ProjectsScreen.compareStars x y <=? 0)
  = match ToNumber (stargazers_count x), ToNumber (stargazers_count y) with
    | Num zx, Num zy => zy <=? zx
    | _, _ => true
    end.
Proof.
  unfold SortCompare, ProjectsScreen.compareStars, sub.
  destruct (stargazers_count x) as [| |zx], (stargazers_count y) as [| |zy];
    cbn [ToNumber negate add]; try reflexivity;
    rewrite round64_sign;
    match goal with
    | |- (?d <=? 0) = (?a <=? ?b) =>
        destruct (Z.leb_spec d 0), (Z.leb_spec a b); try reflexivity; lia
    end.
Qed.

Lemma present_ToNumber (r : Repository) :
  star_count_present r = true ->
  ToNumber (stargazers_count r) = Num (star_value r).
Proof.
  unfold star_count_present, star_value.
  destruct (stargazers_count r); [discriminate|reflexivity|reflexivity].
Qed.

(** ** Sorting *)

Section SortFacts.
Context {A : Type}.
Variable comparefn : A -> A -> Number.

Lemma insert_Permutation (x : A) (arr : list A) :
  Permutation (x :: arr) (insert comparefn x arr).
Proof.
  induction arr as [|y rest IH]; simpl.
  - apply Permutation_refl.
  - destruct (SortCompare comparefn x y <=? 0).
    + apply Permutation_refl.
    + eapply perm_trans; [apply perm_swap|].
      now apply perm_skip.
Qed.

Lemma sort_Permutation (arr : list A) :
  Permutation arr (sort comparefn arr).
Proof.
  induction arr as [|x rest IH]; simpl.
  - constructor.
  - eapply perm_trans; [apply perm_skip, IH|].
    apply insert_Permutation.
Qed.

Lemma sort_length (arr : list A) :
  List.length (sort comparefn arr) = List.length arr.
Proof.
  symmetry. apply Permutation_length, sort_Permutation.
Qed.

Lemma sort_Forall (P : A -> Prop) (arr : list A) :
  Forall P arr -> Forall P (sort comparefn arr).
Proof.
  intros H. eapply Permutation_Forall; [apply sort_Permutation|exact H].
Qed.
End SortFacts.

Section SortedLists.
Context {A : Type}.
Variable R : A -> A -> Prop.

Lemma StronglySorted_firstn (n : nat) (l : list A) :
  StronglySorted R l -> StronglySorted R (firstn n l).
Proof.
  intros H. revert n.
  induction H as [|a l Hs IH Hall]; intros [|n]; simpl; try constructor.
  - apply IH.
  - apply Forall_forall. intros b Hb.
    rewrite Forall_forall in Hall. apply Hall.
    rewrite <- (firstn_skipn n l). apply in_or_app. now left.
Qed.

Lemma StronglySorted_nth_error (l : list A) :
  StronglySorted R l ->
  forall (i j : nat) (a b : A),
    (i < j)%nat -> nth_error l i = Some a -> nth_error l j = Some b -> R a b.
Proof.
  induction 1 as [|x l Hs IH Hall]; intros i j a b Hij Hi Hj.
  - destruct i; discriminate.
  - destruct j as [|j]; [lia|].
    simpl in Hj. destruct i as [|i]; simpl in Hi.
    + injection Hi as <-.
      rewrite Forall_forall in Hall. apply Hall.
      eapply nth_error_In; eassumption.
    + apply (IH i j); [lia|assumption|assumption].
Qed.
End SortedLists.

Lemma counts_counted (repos : list Repository) (counts : list Z) :
  map stargazers_count repos = map value counts -> Forall counted repos.
Proof.
  revert counts.
  induction repos as [|r repos IH]; intros [|z counts] H; try discriminate.
  - constructor.
  - simpl in H. injection H as Hr Hrest.
    constructor; [now exists z | eauto].
Qed.

Lemma insert_descending (x : Repository) (arr : list Repository) :
  counted x -> Forall counted arr ->
  StronglySorted stars_ge arr ->
  StronglySorted stars_ge (insert ProjectsScreen.compareStars x arr).
Proof.
  intros [zx Hx] Hall Hs.
  induction Hs as [|y rest Hs IH Hy]; simpl.
  - repeat constructor.
  - pose proof (Forall_inv Hall) as [zy Hzy].
    pose proof (Forall_inv_tail Hall) as Hrest.
    rewrite SortCompare_stars, Hx, Hzy. cbn [ToNumber].
    destruct (Z.leb_spec zy zx) as [Hle|Hgt].
    + constructor; [now constructor|].
      constructor.
      * exists zx, zy. repeat split; [assumption|assumption|lia].
      * rewrite Forall_forall in Hy |- *. intros b Hb.
        destruct (Hy b Hb) as (zy' & zb & Hy' & Hzb & Hle').
        rewrite Hzy in Hy'. injection Hy' as <-.
        exists zx, zb. repeat split; [assumption|assumption|lia].
    + constructor; [apply IH, Hrest|].
      eapply Permutation_Forall; [apply insert_Permutation|].
      constructor; [|assumption].
      exists zy, zx. repeat split; [assumption|assumption|lia].
Qed.

Lemma sort_descending (arr : list Repository) :
  Forall counted arr ->
  StronglySorted stars_ge (sort ProjectsScreen.compareStars arr).
Proof.
  induction 1 as [|x rest Hx Hrest IH]; simpl.
  - constructor.
  - apply insert_descending; [assumption| |assumption].
    now apply sort_Forall.
Qed.

Lemma insert_ranked (x : Repository) (arr : list Repository) :
  star_count_present x = true ->
  forallb star_count_present arr = true ->
  StronglySorted ranks_ge arr ->
  StronglySorted ranks_ge (insert ProjectsScreen.compareStars x arr).
Proof.
  intros Hx Hall Hs.
  induction Hs as [|y rest Hs IH Hy]; cbn [insert].
  - repeat constructor.
  - cbn [forallb] in Hall. apply andb_prop in Hall. destruct Hall as [Hpy Hrest].
    rewrite SortCompare_stars, (present_ToNumber x Hx), (present_ToNumber y Hpy).
    destruct (Z.leb_spec (star_value y) (star_value x)) as [Hle|Hgt].
    + constructor; [now constructor|].
      constructor.
      * now repeat split.
      * rewrite Forall_forall in Hy |- *. intros b Hb.
        destruct (Hy b Hb) as (_ & Hpb & Hle').
        repeat split; [assumption|assumption|lia].
    + constructor; [now apply IH|].
      eapply Permutation_Forall; [apply insert_Permutation|].
      constructor; [|assumption].
      repeat split; [assumption|assumption|lia].
Qed.

Lemma sort_present (arr : list Repository) :
  forallb star_count_present arr = true ->
  forallb star_count_present (sort ProjectsScreen.compareStars arr) = true.
Proof.
  rewrite !forallb_forall. intros H r Hr. apply H.
  eapply Permutation_in; [|exact Hr].
  apply Permutation_sym, sort_Permutation.
Qed.

Lemma sort_ranked (arr : list Repository) :
  forallb star_count_present arr = true ->
  StronglySorted ranks_ge (sort ProjectsScreen.compareStars arr).
Proof.
  induction arr as [|x rest IH]; intros H; cbn [sort].
  - constructor.
  - cbn [forallb] in H. apply andb_prop in H. destruct H as [Hx Hrest].
    apply insert_ranked; [assumption| |now apply IH].
    now apply sort_present.
Qed.

(** The sample list sorted: most stars first, and the two repositories
    with five stars in their fetched order. *)
Example sort_sampleRepos :
  map name (sort ProjectsScreen.compareStars sampleRepos)
  = [value "gamma"; value "alpha"; value "delta"; value "beta"]%string.
Proof. reflexivity. Qed.

(** A star count that is absent makes every comparison with it [NaN],
    which counts as a tie: such a list is left as it was fetched, and the
    total of its counts is [NaN]. *)
Example sort_absent_count :
  let repos :=
    [ sampleRepo "one" (value 1) null;
      sampleRepo "none" undefined null;
      sampleRepo "five" (value 5) null ]%string in
  map name (sort ProjectsScreen.compareStars repos)
  = [value "one"; value "none"; value "five"]%string /\
  reduce ProfileScreen.addStars (Num 0) repos = NaN.
Proof. split; reflexivity. Qed.

(** ** What a run of each fetch leaves behind *)

Lemma fetchGitHubData_success
    (profileData : GitHubProfile) (reposData : list Repository)
    (st : ProfileScreen.State) :
  exec (ProfileScreen.fetchGitHubData (success profileData) (success reposData)) st
  = ProfileScreen.mkState
      (Some profileData)
      (firstn 3 (sort ProfileScreen.compareStars reposData))
      (reduce ProfileScreen.addStars (Num 0) reposData)
      false
      (ProfileScreen.error st).
Proof. reflexivity. Qed.

Lemma fetchGitHubData_failure
    (profileFetch : Fetched GitHubProfile)
    (reposFetch : Fetched (list Repository)) (st : ProfileScreen.State) :
  failure profileFetch \/ failure reposFetch ->
  exec (ProfileScreen.fetchGitHubData profileFetch reposFetch) st
  = ProfileScreen.mkState
      (ProfileScreen.profile st) (ProfileScreen.topRepos st)
      (ProfileScreen.totalStars st)
      false (Some "Failed to load profile data"%string).
Proof.
  intros H.
  destruct profileFetch as [|[|] [p|]], reposFetch as [|[|] [r|]];
    try reflexivity.
  destruct H as [H|H]; inversion H.
Qed.

Lemma fetchRepositories_success
    (data : list Repository) (st : ProjectsScreen.State) :
  exec (ProjectsScreen.fetchRepositories (success data)) st
  = ProjectsScreen.mkState
      (sort ProjectsScreen.compareStars data)
      (ProjectsScreen.selectedRepo st)
      false
      (ProjectsScreen.error st).
Proof. reflexivity. Qed.

Lemma fetchRepositories_failure
    (reposFetch : Fetched (list Repository)) (st : ProjectsScreen.State) :
  failure reposFetch ->
  exec (ProjectsScreen.fetchRepositories reposFetch) st
  = ProjectsScreen.mkState
      (ProjectsScreen.repositories st) (ProjectsScreen.selectedRepo st)
      false (Some "Failed to load repositories"%string).
Proof.
  intros H; destruct H; reflexivity.
Qed.

Lemma stars_magnitude_nonneg (repos : list Repository) :
  0 <= stars_magnitude repos.
Proof.
  induction repos as [|r repos IH]; simpl; lia.
Qed.

Lemma reduce_addStars_exact (repos : list Repository) (acc : Z) :
  forallb star_count_present repos = true ->
  Z.abs acc + stars_magnitude repos <= MAX_EXACT ->
  reduce ProfileScreen.addStars (Num acc) repos = Num (acc + stars_sum repos).
Proof.
  unfold reduce. revert acc.
  induction repos as [|r repos IH]; intros acc Hp Hb.
  - simpl. f_equal. lia.
  - cbn [forallb] in Hp. apply andb_prop in Hp. destruct Hp as [Hr Hp].
    cbn [stars_magnitude stars_sum fold_right] in *.
    fold (stars_magnitude repos) in Hb. fold (stars_sum repos).
    pose proof (stars_magnitude_nonneg repos) as Hn.
    cbn [fold_left].
    replace (ProfileScreen.addStars (Num acc) r) with (Num (acc + star_value r)).
    + rewrite IH; [f_equal; lia|assumption|lia].
    + unfold ProfileScreen.addStars. rewrite (present_ToNumber r Hr).
      cbn [add]. symmetry. apply round64_exact. lia.
Qed.

(** ** Total star count *)

(** C1, as stated, fails.  With a repository that has no star count the
    total is not a number; and counts that add up to 2^53 + 1 give the
    total 2^53. *)
Lemma total_stars_not_the_sum :
  ProfileScreen.totalStars
    (exec (ProfileScreen.fetchGitHubData (success sampleProfile) (success absentRepos))
          ProfileScreen.initial)
  = NaN /\
  map stargazers_count hugeRepos = map value [9007199254740992; 1] /\
  ProfileScreen.totalStars
    (exec (ProfileScreen.fetchGitHubData (success sampleProfile) (success hugeRepos))
          ProfileScreen.initial)
  = Num 9007199254740992 /\
  ProfileScreen.totalStars
    (exec (ProfileScreen.fetchGitHubData (success sampleProfile) (success hugeRepos))
          ProfileScreen.initial)
  <> Num (fold_right Z.add 0 [9007199254740992; 1]).
Proof.
  assert (H : ProfileScreen.totalStars
                (exec (ProfileScreen.fetchGitHubData
                         (success sampleProfile) (success hugeRepos))
                      ProfileScreen.initial)
              = Num 9007199254740992) by (vm_compute; reflexivity).
  split; [vm_compute; reflexivity|].
  split; [reflexivity|].
  split; [exact H|].
  rewrite H. vm_compute. discriminate.
Qed.

(** C1, amended.  After a fetch in which both requests succeed, when no
    fetched repository lacks its star count and the magnitudes of the
    counts add up to at most 2^53, the total star count held by the
    profile screen is the sum of [stargazers_count] over the fetched
    repositories, a null count adding 0; for the empty list it is 0. *)
Theorem total_stars_is_sum
    (profileData : GitHubProfile) (reposData : list Repository)
    (st : ProfileScreen.State) :
  forallb star_count_present reposData = true ->
  stars_magnitude reposData <= MAX_EXACT ->
  ProfileScreen.totalStars
    (exec (ProfileScreen.fetchGitHubData (success profileData) (success reposData)) st)
  = Num (stars_sum reposData).
Proof.
  intros Hp Hb. rewrite fetchGitHubData_success. cbn [ProfileScreen.totalStars].
  rewrite (reduce_addStars_exact reposData 0 Hp); [f_equal|]; simpl; lia.
Qed.

Lemma total_stars_is_sum_witness :
  forallb star_count_present sampleRepos = true /\
  stars_magnitude sampleRepos <= MAX_EXACT /\
  ProfileScreen.totalStars
    (exec (ProfileScreen.fetchGitHubData (success sampleProfile) (success sampleRepos))
          ProfileScreen.initial)
  = Num 22.
Proof.
  assert (Hb : stars_magnitude sampleRepos <= MAX_EXACT)
    by (apply Z.leb_le; reflexivity).
  split; [reflexivity|]. split; [exact Hb|].
  apply (total_stars_is_sum sampleProfile sampleRepos ProfileScreen.initial
           eq_refl Hb).
Defined.

(** ** Top repositories *)

(** C2, as stated, fails.  When a fetched repository has no star count
    the comparator cannot order it, and the top list is not descending:
    here it holds 1 star before 5 stars. *)
Lemma top_repos_absent_count_unsorted :
  let top :=
    ProfileScreen.topRepos
      (exec (ProfileScreen.fetchGitHubData (success sampleProfile) (success absentRepos))
            ProfileScreen.initial)
  in
  map stargazers_count top = [value 1; undefined; value 5] /\
  ~ descending top.
Proof.
  cbv zeta. split; [reflexivity|].
  intros H.
  destruct (H 0%nat 2%nat _ _ (Nat.lt_0_succ 1) eq_refl eq_refl) as (_ & _ & Hle).
  vm_compute in Hle. now apply Hle.
Qed.

(** C2, amended.  When no fetched repository lacks its star count, the
    top-repositories list of the profile screen has at most three
    entries and is descending by star count: of two entries, the earlier
    one has at least as many stars as the later one, a null count
    ranking as 0.  Nothing is said about the order of entries with equal
    counts. *)
Theorem top_repos_descending
    (profileData : GitHubProfile) (reposData : list Repository)
    (st : ProfileScreen.State) :
  forallb star_count_present reposData = true ->
  let top :=
    ProfileScreen.topRepos
      (exec (ProfileScreen.fetchGitHubData (success profileData) (success reposData)) st)
  in
  (List.length top <= 3)%nat /\ descending top.
Proof.
  intros H top. subst top. rewrite fetchGitHubData_success.
  cbn [ProfileScreen.topRepos].
  split.
  - apply firstn_le_length.
  - unfold descending.
    apply StronglySorted_nth_error, StronglySorted_firstn.
    now apply sort_ranked.
Qed.

Lemma top_repos_descending_witness :
  forallb star_count_present sampleRepos = true /\
  let top :=
    ProfileScreen.topRepos
      (exec (ProfileScreen.fetchGitHubData (success sampleProfile) (success sampleRepos))
            ProfileScreen.initial)
  in
  (List.length top <= 3)%nat /\ descending top.
Proof.
  split; [reflexivity|].
  apply (top_repos_descending sampleProfile sampleRepos ProfileScreen.initial).
  reflexivity.
Defined.

(** C9.  The top-repositories list has exactly [min 3 n] entries for a
    fetched list of [n] repositories: fewer than three repositories all
    appear, and nothing pads the list. *)
Theorem top_repos_length
    (profileData : GitHubProfile) (reposData : list Repository)
    (st : ProfileScreen.State) :
  List.length
    (ProfileScreen.topRepos
       (exec (ProfileScreen.fetchGitHubData (success profileData) (success reposData)) st))
  = Nat.min 3 (List.length reposData).
Proof.
  rewrite fetchGitHubData_success. cbn [ProfileScreen.topRepos].
  rewrite length_firstn, sort_length. reflexivity.
Qed.

(** ** The all-repositories list *)

(** C3, as stated, fails.  When a fetched repository has no star count
    the list held by the all-repositories screen is not descending: here
    it holds 1 star before 5 stars. *)
Lemma all_repos_absent_count_unsorted :
  let stored :=
    ProjectsScreen.repositories
      (exec (ProjectsScreen.fetchRepositories (success absentRepos))
            ProjectsScreen.initial)
  in
  map stargazers_count stored = [value 1; undefined; value 5] /\
  ~ descending stored.
Proof.
  cbv zeta. split; [reflexivity|].
  intros H.
  destruct (H 0%nat 2%nat _ _ (Nat.lt_0_succ 1) eq_refl eq_refl) as (_ & _ & Hle).
  vm_compute in Hle. now apply Hle.
Qed.

(** C3, amended.  When no fetched repository lacks its star count, the
    list held by the all-repositories screen after a successful fetch is
    descending by star count throughout: of two positions, the earlier
    one holds at least as many stars as the later one, a null count
    ranking as 0. *)
Theorem all_repos_descending
    (data : list Repository) (st : ProjectsScreen.State) :
  forallb star_count_present data = true ->
  descending
    (ProjectsScreen.repositories
       (exec (ProjectsScreen.fetchRepositories (success data)) st)).
Proof.
  intros H. rewrite fetchRepositories_success.
  cbn [ProjectsScreen.repositories]. unfold descending.
  apply StronglySorted_nth_error. now apply sort_ranked.
Qed.

Lemma all_repos_descending_witness :
  forallb star_count_present sampleRepos = true /\
  descending
    (ProjectsScreen.repositories
       (exec (ProjectsScreen.fetchRepositories (success sampleRepos))
             ProjectsScreen.initial)).
Proof.
  split; [reflexivity|].
  apply (all_repos_descending sampleRepos ProjectsScreen.initial). reflexivity.
Defined.

(** C8.  The sorted list of the all-repositories screen is a permutation
    of the fetched list: sorting drops, repeats and invents nothing. *)
Theorem all_repos_permutation
    (data : list Repository) (st : ProjectsScreen.State) :
  Permutation data
    (ProjectsScreen.repositories
       (exec (ProjectsScreen.fetchRepositories (success data)) st)).
Proof.
  rewrite fetchRepositories_success. apply sort_Permutation.
Qed.

(** ** The two screens sort alike *)


(** ** Failed fetches *)

(** C4.  When a request of a screen's fetch fails (the fetch rejects, the
    status is not a success, or the body does not parse), the run sets
    that screen's fixed error message, clears the loading flag and sets
    nothing else: profile, repositories and total are what they were, so
    from the state the screen is mounted with they stay empty and the
    screen renders the error message. *)
Theorem failed_fetch_sets_only_error
    (profileFetch : Fetched GitHubProfile)
    (reposFetch reposFetch' : Fetched (list Repository))
    (st : ProfileScreen.State) (st' : ProjectsScreen.State) :
  failure profileFetch \/ failure reposFetch ->
  failure reposFetch' ->
  (exec (ProfileScreen.fetchGitHubData profileFetch reposFetch) st
   = ProfileScreen.mkState
       (ProfileScreen.profile st) (ProfileScreen.topRepos st)
       (ProfileScreen.totalStars st)
       false (Some "Failed to load profile data"%string)
   /\
   exec (ProfileScreen.fetchGitHubData profileFetch reposFetch) ProfileScreen.initial
   = ProfileScreen.mkState None [] (Num 0)
       false (Some "Failed to load profile data"%string)
   /\
   ProfileScreen.view
     (exec (ProfileScreen.fetchGitHubData profileFetch reposFetch) ProfileScreen.initial)
   = ErrorView "Failed to load profile data"%string)
  /\
  (exec (ProjectsScreen.fetchRepositories reposFetch') st'
   = ProjectsScreen.mkState
       (ProjectsScreen.repositories st') (ProjectsScreen.selectedRepo st')
       false (Some "Failed to load repositories"%string)
   /\
   exec (ProjectsScreen.fetchRepositories reposFetch') ProjectsScreen.initial
   = ProjectsScreen.mkState [] None
       false (Some "Failed to load repositories"%string)
   /\
   ProjectsScreen.view
     (exec (ProjectsScreen.fetchRepositories reposFetch') ProjectsScreen.initial)
   = ErrorView "Failed to load repositories"%string).
Proof.
  intros H H'. split.
  - rewrite !(fetchGitHubData_failure profileFetch reposFetch _ H).
    repeat split.
  - rewrite !(fetchRepositories_failure reposFetch' _ H').
    repeat split.
Qed.

Lemma failed_fetch_sets_only_error_witness :
  (failure (success sampleProfile) \/ failure (Resolved false (Some sampleRepos))) /\
  failure (@Resolved (list Repository) true None) /\
  exec (ProfileScreen.fetchGitHubData
          (success sampleProfile) (Resolved false (Some sampleRepos)))
       ProfileScreen.initial
  = ProfileScreen.mkState None [] (Num 0)
      false (Some "Failed to load profile data"%string) /\
  exec (ProjectsScreen.fetchRepositories (Resolved true None)) ProjectsScreen.initial
  = ProjectsScreen.mkState [] None
      false (Some "Failed to load repositories"%string).
Proof.
  pose proof (failed_fetch_sets_only_error
                (success sampleProfile) (Resolved false (Some sampleRepos))
                (Resolved true None)
                ProfileScreen.initial ProjectsScreen.initial
                (or_intror (status_not_ok (Some sampleRepos)))
                json_malformed) as [(_ & Hprofile & _) (_ & Hprojects & _)].
  split; [right; constructor|].
  split; [constructor|].
  split; assumption.
Defined.

(** ** A successful fetch after a failed one *)

(** C5, as stated, fails: a fetch that succeeds after a failed one on
    the same screen does not leave the state of a fresh successful fetch.
    The error message of the failed run is still set, and the screen
    still renders it. *)
Lemma refetch_after_failure_keeps_error :
  let failed :=
    exec (ProfileScreen.fetchGitHubData Rejected Rejected) ProfileScreen.initial in
  let refetched :=
    exec (ProfileScreen.fetchGitHubData (success sampleProfile) (success sampleRepos))
         failed in
  let fresh :=
    exec (ProfileScreen.fetchGitHubData (success sampleProfile) (success sampleRepos))
         ProfileScreen.initial in
  refetched <> fresh /\
  ProfileScreen.error refetched = Some "Failed to load profile data"%string /\
  ProfileScreen.error fresh = None /\
  ProfileScreen.view refetched = ErrorView "Failed to load profile data"%string /\
  ProfileScreen.view fresh = ContentView fresh.
Proof.
  cbv zeta. repeat split. intros H.
  apply (f_equal ProfileScreen.error) in H. discriminate H.
Qed.

(** C5, amended.  After a failed fetch followed by a successful one on
    the same screen, the data is exactly the data of a fresh successful
    fetch (profile, top repositories and total on the profile screen, the
    repository list on the all-repositories screen) and the loading flag
    is cleared, while the error message set by the failed run stays set:
    no fetch clears it, and the screen keeps rendering it. *)
Theorem refetch_after_failure_replaces_data
    (profileFetch : Fetched GitHubProfile)
    (reposFetch reposFetch' : Fetched (list Repository))
    (profileData : GitHubProfile) (reposData : list Repository)
    (st : ProfileScreen.State) (st' : ProjectsScreen.State) :
  failure profileFetch \/ failure reposFetch ->
  failure reposFetch' ->
  (let refetched :=
     exec (ProfileScreen.fetchGitHubData (success profileData) (success reposData))
          (exec (ProfileScreen.fetchGitHubData profileFetch reposFetch) st) in
   let fresh :=
     exec (ProfileScreen.fetchGitHubData (success profileData) (success reposData))
          ProfileScreen.initial in
   ProfileScreen.profile refetched = ProfileScreen.profile fresh /\
   ProfileScreen.topRepos refetched = ProfileScreen.topRepos fresh /\
   ProfileScreen.totalStars refetched = ProfileScreen.totalStars fresh /\
   ProfileScreen.loading refetched = false /\
   ProfileScreen.error refetched = Some "Failed to load profile data"%string /\
   ProfileScreen.view refetched = ErrorView "Failed to load profile data"%string)
  /\
  (let refetched :=
     exec (ProjectsScreen.fetchRepositories (success reposData))
          (exec (ProjectsScreen.fetchRepositories reposFetch') st') in
   let fresh :=
     exec (ProjectsScreen.fetchRepositories (success reposData))
          ProjectsScreen.initial in
   ProjectsScreen.repositories refetched = ProjectsScreen.repositories fresh /\
   ProjectsScreen.loading refetched = false /\
   ProjectsScreen.error refetched = Some "Failed to load repositories"%string /\
   ProjectsScreen.view refetched = ErrorView "Failed to load repositories"%string).
Proof.
  intros H H'. cbv zeta. split.
  - rewrite (fetchGitHubData_failure profileFetch reposFetch st H).
    rewrite !fetchGitHubData_success. repeat split.
  - rewrite (fetchRepositories_failure reposFetch' st' H').
    rewrite !fetchRepositories_success. repeat split.
Qed.

Lemma refetch_after_failure_replaces_data_witness :
  (failure (@Rejected GitHubProfile) \/ failure (success sampleRepos)) /\
  failure (@Resolved (list Repository) false None) /\
  ProfileScreen.topRepos
    (exec (ProfileScreen.fetchGitHubData (success sampleProfile) (success sampleRepos))
          (exec (ProfileScreen.fetchGitHubData Rejected (success sampleRepos))
                ProfileScreen.initial))
  = ProfileScreen.topRepos
      (exec (ProfileScreen.fetchGitHubData (success sampleProfile) (success sampleRepos))
            ProfileScreen.initial) /\
  ProjectsScreen.error
    (exec (ProjectsScreen.fetchRepositories (success sampleRepos))
          (exec (ProjectsScreen.fetchRepositories (Resolved false None))
                ProjectsScreen.initial))
  = Some "Failed to load repositories"%string.
Proof.
  pose proof (refetch_after_failure_replaces_data
                Rejected (success sampleRepos) (Resolved false None)
                sampleProfile sampleRepos
                ProfileScreen.initial ProjectsScreen.initial
                (or_introl fetch_rejects)
                (status_not_ok None)) as [Hprofile Hprojects].
  cbv zeta in Hprofile, Hprojects.
  destruct Hprofile as (_ & Htop & _).
  destruct Hprojects as (_ & _ & Herror & _).
  split; [left; constructor|].
  split; [constructor|].
  split; assumption.
Defined.

(** ** Dates *)

Lemma length_append (s1 s2 : string) :
  String.length (s1 ++ s2) = (String.length s1 + String.length s2)%nat.
Proof.
  induction s1 as [|c s1 IH]; simpl; [reflexivity|now rewrite IH].
Qed.

Section DateFacts.
Variable parse : string -> Date.
Variable distance : Z -> string.

(** The date helper of the all-repositories screen answers "N/A" for a
    date that is missing, null, empty or not parseable. *)
Lemma formatDate_NA (dateString : Nullable string) :
  dateString = undefined \/ dateString = null \/
  (exists s : string, dateString = value s /\ parse s = None) ->
  ProjectsScreen.formatDate parse distance dateString = Normal "N/A"%string.
Proof.
  intros [->|[->|(s & -> & Hs)]]; try reflexivity.
  unfold ProjectsScreen.formatDate.
  destruct (negb (truthy_string (value s))); [reflexivity|].
  simpl. now rewrite Hs.
Qed.

(** The profile screen never displays "N/A" for a date: it either
    throws or wraps the formatted distance. *)
Lemma profile_createdText_never_NA (repo : Repository) :
  ProfileScreen.createdText parse distance repo <> Normal "Created N/A"%string.
Proof.
  unfold ProfileScreen.createdText.
  destruct (formatDistanceToNow distance (new_Date parse (created_at repo)))
    as [s|e]; [|discriminate].
  intros H. injection H as H.
  apply (f_equal String.length) in H.
  rewrite length_append in H. simpl in H. lia.
Qed.
End DateFacts.

(** C6.  A repository of the top three whose creation or update date is
    missing makes the profile screen throw while rendering, and one whose
    date is null is shown with the distance from time 0; the
    all-repositories screen shows "N/A" for the same repositories. *)
Theorem profile_dates_not_guarded (parse : string -> Date) (distance : Z -> string) :
  let missing := sampleRepo "alpha" (value 5) undefined in
  let nulled := sampleRepo "alpha" (value 5) null in
  ProfileScreen.createdText parse distance missing = Throw "Invalid time value"%string /\
  ProfileScreen.updatedText parse distance missing = Throw "Invalid time value"%string /\
  ProfileScreen.createdText parse distance nulled
  = Normal ("Created " ++ distance 0 ++ " ago")%string /\
  ProfileScreen.createdText parse distance nulled <> Normal "Created N/A"%string /\
  ProjectsScreen.createdText parse distance missing = Normal "Created N/A"%string /\
  ProjectsScreen.updatedText parse distance missing = Normal "Updated N/A"%string /\
  ProjectsScreen.createdText parse distance nulled = Normal "Created N/A"%string.
Proof.
  cbv zeta. repeat split. apply profile_createdText_never_NA.
Qed.

(** ** The detail modal *)

(** C10.  In the detail modal a star, fork or open-issue count that is
    missing, null or zero is shown as the number 0, whether or not a
    repository is selected. *)
Theorem modal_stats_default_zero (selected : option Repository) :
  (missing_or_zero (optional_chain selected stargazers_count) ->
   ProjectsScreen.modalStars selected = 0) /\
  (missing_or_zero (optional_chain selected forks_count) ->
   ProjectsScreen.modalForks selected = 0) /\
  (missing_or_zero (optional_chain selected open_issues_count) ->
   ProjectsScreen.modalIssues selected = 0).
Proof.
  unfold ProjectsScreen.modalStars, ProjectsScreen.modalForks,
    ProjectsScreen.modalIssues.
  repeat split; intros [H|[H|H]]; rewrite H; reflexivity.
Qed.

Lemma modal_stats_default_zero_witness :
  missing_or_zero
    (optional_chain
       (Some (mkRepository (value 7) (value "alpha"%string) null
                (value 0) null null null null undefined null undefined))
       stargazers_count) /\
  ProjectsScreen.modalStars
    (Some (mkRepository (value 7) (value "alpha"%string) null
             (value 0) null null null null undefined null undefined)) = 0 /\
  ProjectsScreen.modalForks
    (Some (mkRepository (value 7) (value "alpha"%string) null
             (value 0) null null null null undefined null undefined)) = 0 /\
  ProjectsScreen.modalIssues
    (Some (mkRepository (value 7) (value "alpha"%string) null
             (value 0) null null null null undefined null undefined)) = 0.
Proof.
  pose proof (modal_stats_default_zero
                (Some (mkRepository (value 7) (value "alpha"%string) null
                         (value 0) null null null null undefined null undefined)))
    as (Hstars & Hforks & Hissues).
  split; [right; right; reflexivity|].
  split; [apply Hstars; right; right; reflexivity|].
  split; [apply Hforks; left; reflexivity|].
  apply Hissues; right; left; reflexivity.
Defined.

(** * Further properties of the screens *)

(** ** Date formatting *)

Section DateFormatting.
Variable parse : string -> Date.
Variable distance : Z -> string.

Lemma ago_is_not_NA (s : string) : (s ++ " ago")%string <> "N/A"%string.
Proof.
  intros H. apply (f_equal String.length) in H.
  rewrite length_append in H. simpl in H. lia.
Qed.

Lemma formatDate_cases (v : Nullable string) :
  (unusable_date parse v /\
   ProjectsScreen.formatDate parse distance v = Normal "N/A"%string) \/
  (exists (s : string) (t : Z),
     v = value s /\ s <> EmptyString /\ parse s = Some t /\
     ProjectsScreen.formatDate parse distance v
     = Normal (distance t ++ " ago")%string).
Proof.
  unfold unusable_date.
  destruct v as [| |s].
  - left. split; [now left | reflexivity].
  - left. split; [now right; left | reflexivity].
  - unfold ProjectsScreen.formatDate. simpl.
    destruct (String.eqb_spec s EmptyString) as [->|Hne]; simpl.
    + left. split; [now right; right; left | reflexivity].
    + destruct (parse s) as [t|] eqn:Hp; simpl.
      * right. exists s, t. repeat split; assumption.
      * left. split; [|reflexivity].
        right; right; right. exists s. now split.
Qed.

(** X1.  The date helper of the all-repositories screen answers "N/A"
    exactly for a date that is missing, null, empty or rejected by the
    date parser; for any other date it answers the distance from now
    followed by " ago". *)
Theorem formatDate_NA_exactly (v : Nullable string) :
  (ProjectsScreen.formatDate parse distance v = Normal "N/A"%string
   <-> unusable_date parse v) /\
  (forall (s : string) (t : Z),
     v = value s -> s <> EmptyString -> parse s = Some t ->
     ProjectsScreen.formatDate parse distance v
     = Normal (distance t ++ " ago")%string).
Proof.
  split.
  - split.
    + intros H.
      destruct (formatDate_cases v) as [[Hu _]|(s & t & _ & _ & _ & Hf)];
        [assumption|].
      rewrite Hf in H. injection H as H. now apply ago_is_not_NA in H.
    + intros Hu.
      destruct (formatDate_cases v) as [[_ Hf]|(s & t & -> & Hne & Hp & _)];
        [assumption|].
      destruct Hu as [Hu|[Hu|[Hu|(s' & Hu & Hp')]]]; try discriminate.
      * injection Hu as ->. now elim Hne.
      * injection Hu as ->. rewrite Hp in Hp'. discriminate.
  - intros s t -> Hne Hp.
    destruct (formatDate_cases (value s))
      as [[Hu _]|(s' & t' & Hs & _ & Hp' & Hf)].
    + destruct Hu as [Hu|[Hu|[Hu|(s' & Hu & Hp')]]]; try discriminate.
      * injection Hu as ->. now elim Hne.
      * injection Hu as ->. rewrite Hp in Hp'. discriminate.
    + injection Hs as <-. rewrite Hp in Hp'. injection Hp' as <-. exact Hf.
Qed.

Lemma formatDate_completes (v : Nullable string) :
  exists s : string, ProjectsScreen.formatDate parse distance v = Normal s.
Proof.
  destruct (formatDate_cases v) as [[_ Hf]|(s & t & _ & _ & _ & Hf)];
    rewrite Hf; eauto.
Qed.

(** X2.  The all-repositories screen never throws while rendering a
    date: the two date lines of a list row and the two of the detail
    modal always complete, whatever the dates hold and whether or not a
    repository is selected; with none selected the modal shows "N/A". *)
Theorem projects_dates_never_throw (item : Repository) (selected : option Repository) :
  (exists s, ProjectsScreen.createdText parse distance item = Normal s) /\
  (exists s, ProjectsScreen.updatedText parse distance item = Normal s) /\
  (exists s, ProjectsScreen.modalCreatedText parse distance selected = Normal s) /\
  (exists s, ProjectsScreen.modalUpdatedText parse distance selected = Normal s) /\
  ProjectsScreen.modalCreatedText parse distance None = Normal "Created N/A"%string /\
  ProjectsScreen.modalUpdatedText parse distance None
  = Normal "Last updated N/A"%string.
Proof.
  unfold ProjectsScreen.createdText, ProjectsScreen.updatedText,
    ProjectsScreen.modalCreatedText, ProjectsScreen.modalUpdatedText.
  repeat split; try reflexivity.
  - destruct (formatDate_completes (created_at item)) as [s ->]; eauto.
  - destruct (formatDate_completes (updated_at item)) as [s ->]; eauto.
  - destruct (formatDate_completes (optional_chain selected created_at)) as [s ->];
      eauto.
  - destruct (formatDate_completes (optional_chain selected updated_at)) as [s ->];
      eauto.
Qed.

Lemma formatDistanceToNow_new_Date_throws (v : Nullable string) :
  (exists e, formatDistanceToNow distance (new_Date parse v) = Throw e)
  <-> (v = undefined \/ exists s : string, v = value s /\ parse s = None).
Proof.
  destruct v as [| |s]; simpl.
  - split; [now left | eauto].
  - split; [intros [e H]; discriminate | intros [H|(s & H & _)]; discriminate].
  - destruct (parse s) as [t|] eqn:Hp; simpl.
    + split; [intros [e H]; discriminate|].
      intros [H|(s' & H & Hp')]; [discriminate|].
      injection H as ->. rewrite Hp in Hp'. discriminate.
    + split; [|eauto]. intros _. right. exists s. now split.
Qed.

(** X3.  A repository card of the profile screen throws while rendering
    exactly when its creation date, or else its update date, is missing
    or rejected by the date parser; a null date does not throw. *)
Theorem profile_dates_throw_exactly (repo : Repository) :
  ((exists e, ProfileScreen.createdText parse distance repo = Throw e)
   <-> (created_at repo = undefined \/
        exists s : string, created_at repo = value s /\ parse s = None)) /\
  ((exists e, ProfileScreen.updatedText parse distance repo = Throw e)
   <-> (updated_at repo = undefined \/
        exists s : string, updated_at repo = value s /\ parse s = None)).
Proof.
  split.
  - rewrite <- formatDistanceToNow_new_Date_throws.
    unfold ProfileScreen.createdText.
    destruct (formatDistanceToNow distance (new_Date parse (created_at repo)));
      split; intros [e H]; try discriminate; eauto.
  - rewrite <- formatDistanceToNow_new_Date_throws.
    unfold ProfileScreen.updatedText.
    destruct (formatDistanceToNow distance (new_Date parse (updated_at repo)));
      split; intros [e H]; try discriminate; eauto.
Qed.

End DateFormatting.

(** ** The list rows and the detail modal *)

Lemma own_property_In (key : string) (obj : ObjectLiteral) (v : string) :
  own_property key obj = Some v -> In v (map snd obj).
Proof.
  induction obj as [|[k w] rest IH]; simpl; [discriminate|].
  destruct (String.eqb k key).
  - intros H. injection H as ->. now left.
  - intros H. right. now apply IH.
Qed.

(** X4.  The colour of a row's language dot.  For a language whose name
    [Object.prototype] does not define, the colour is one of the seven
    colours of the table, a "#" followed by six characters, and the
    default colour when the table has no entry for the language.  A
    language the table lacks and [Object.prototype] defines gets the
    inherited member instead of a colour. *)
Theorem language_dot_color (inherited : string -> bool) (language : string) :
  (inherited language = false ->
   exists c : string,
     ProjectsScreen.languageDotColor inherited language = Own c /\
     In c (map snd ProjectsScreen.languageColors) /\
     String.length c = 7%nat /\
     String.get 0 c = Some "#"%char /\
     (own_property language ProjectsScreen.languageColors = None ->
      c = "#A0AEC0"%string)) /\
  (inherited language = true ->
   own_property language ProjectsScreen.languageColors = None ->
   ProjectsScreen.languageDotColor inherited language = Inherited).
Proof.
  unfold ProjectsScreen.languageDotColor, get_property.
  split.
  - intros Hinh.
    destruct (own_property language ProjectsScreen.languageColors) as [v|] eqn:Hown.
    + pose proof (own_property_In _ _ _ Hown) as Hin.
      exists v.
      assert (Hv : String.eqb v EmptyString = false
                   /\ String.length v = 7%nat /\ String.get 0 v = Some "#"%char).
      { simpl in Hin.
        destruct Hin as [<-|[<-|[<-|[<-|[<-|[<-|[<-|[]]]]]]]]; repeat split. }
      destruct Hv as (Hne & Hlen & Hget).
      simpl. rewrite Hne.
      repeat split; try assumption. discriminate.
    + rewrite Hinh. exists "#A0AEC0"%string. simpl.
      repeat split. do 6 right. now left.
  - intros Hinh Hown. rewrite Hown, Hinh. reflexivity.
Qed.

Lemma language_dot_color_witness :
  sampleInherited "Rust" = false /\
  ProjectsScreen.languageDotColor sampleInherited "Rust" = Own "#A0AEC0"%string /\
  sampleInherited "constructor" = true /\
  ProjectsScreen.languageDotColor sampleInherited "constructor" = Inherited.
Proof.
  split; [reflexivity|]. split.
  - destruct (proj1 (language_dot_color sampleInherited "Rust") eq_refl)
      as (c & Hc & _ & _ & _ & Hdefault).
    rewrite Hc. f_equal. now apply Hdefault.
  - split; [reflexivity|].
    now apply (proj2 (language_dot_color sampleInherited "constructor")).
Defined.

(** X5.  The description line of the detail modal is never empty: it is
    the repository's description when that is a non-empty string, and
    the text "No description available" when the description is missing,
    null or empty, or when no repository is selected. *)
Theorem modal_description_never_empty (selected : option Repository) :
  ProjectsScreen.modalDescription selected <> EmptyString /\
  (forall d : string,
     optional_chain selected description = value d -> d <> EmptyString ->
     ProjectsScreen.modalDescription selected = d) /\
  (optional_chain selected description = undefined \/
   optional_chain selected description = null \/
   optional_chain selected description = value EmptyString ->
   ProjectsScreen.modalDescription selected = "No description available"%string) /\
  ProjectsScreen.modalDescription None = "No description available"%string.
Proof.
  unfold ProjectsScreen.modalDescription.
  repeat split.
  - destruct (optional_chain selected description) as [| |d]; simpl;
      try discriminate.
    destruct (String.eqb_spec d EmptyString); simpl; [discriminate|assumption].
  - intros d -> Hd. simpl.
    destruct (String.eqb_spec d EmptyString); simpl; [contradiction|reflexivity].
  - intros [->|[->| ->]]; reflexivity.
Qed.

Lemma Number_toString_inj (z z' : Z) :
  Number_toString z = Number_toString z' -> z = z'.
Proof.
  unfold Number_toString. intros H.
  apply DecimalZ.to_int_inj.
  assert (Hnil : forall n : Z,
             Z.to_int n <> Decimal.Pos Decimal.Nil /\
             Z.to_int n <> Decimal.Neg Decimal.Nil).
  { intros [|p|p]; simpl; split; try discriminate;
      intros Hp; injection Hp as Hp;
      now apply DecimalPos.Unsigned.to_uint_nonnil in Hp. }
  apply (f_equal NilZero.int_of_string) in H.
  rewrite !NilZero.isi in H by apply Hnil.
  now injection H.
Qed.

(** X6.  The list key of a row is the decimal text of the repository id:
    two rows with the same key have the same id, so repositories with
    different ids never share a key.  Computing the key throws exactly
    when the id is missing or null. *)
Theorem keyExtractor_distinct (a b : Repository) :
  (forall k : string,
     ProjectsScreen.keyExtractor a = Normal k ->
     ProjectsScreen.keyExtractor b = Normal k ->
     id a = id b) /\
  ((exists e, ProjectsScreen.keyExtractor a = Throw e)
   <-> (id a = undefined \/ id a = null)).
Proof.
  unfold ProjectsScreen.keyExtractor. split.
  - intros k Ha Hb.
    destruct (id a) as [| |za]; try discriminate.
    destruct (id b) as [| |zb]; try discriminate.
    injection Ha as Ha. injection Hb as Hb.
    f_equal. apply Number_toString_inj. congruence.
  - destruct (id a) as [| |za]; split;
      try (intros [e H]; discriminate); eauto.
    intros [H|H]; discriminate.
Qed.

Lemma keyExtractor_distinct_witness :
  ProjectsScreen.keyExtractor
    (sampleRepo "alpha" (value 5) null) = Normal "1"%string /\
  id (sampleRepo "alpha" (value 5) null) = id (sampleRepo "beta" (value 0) null).
Proof.
  split; [reflexivity|].
  apply (proj1 (keyExtractor_distinct
                  (sampleRepo "alpha" (value 5) null)
                  (sampleRepo "beta" (value 0) null)) "1"%string);
    reflexivity.
Defined.

(** ** The life of a fetch *)

Lemma fetched_cases {A : Type} (f : Fetched A) :
  failure f \/ exists data : A, f = success data.
Proof.
  destruct f as [|[|] [data|]];
    try (left; constructor).
  right. now exists data.
Qed.



(** X8.  A successful fetch replaces the data of an earlier successful
    fetch wholesale: after two successful fetches the state is the one
    the second fetch alone would have left. *)
Theorem successful_fetch_overwrites
    (profile1 profile2 : GitHubProfile) (repos1 repos2 : list Repository)
    (st : ProfileScreen.State) (st' : ProjectsScreen.State) :
  exec (ProfileScreen.fetchGitHubData (success profile2) (success repos2))
       (exec (ProfileScreen.fetchGitHubData (success profile1) (success repos1)) st)
  = exec (ProfileScreen.fetchGitHubData (success profile2) (success repos2)) st
  /\
  exec (ProjectsScreen.fetchRepositories (success repos2))
       (exec (ProjectsScreen.fetchRepositories (success repos1)) st')
  = exec (ProjectsScreen.fetchRepositories (success repos2)) st'.
Proof.
  rewrite !fetchGitHubData_success, !fetchRepositories_success.
  split; reflexivity.
Qed.

(** ** Selecting a repository *)

Lemma handle_keeps_list (e : ProjectsScreen.Event) (st : ProjectsScreen.State) :
  ProjectsScreen.repositories (ProjectsScreen.handle e st)
  = ProjectsScreen.repositories st /\
  ProjectsScreen.loading (ProjectsScreen.handle e st) = ProjectsScreen.loading st /\
  ProjectsScreen.error (ProjectsScreen.handle e st) = ProjectsScreen.error st /\
  (forall r : Repository,
     ProjectsScreen.selectedRepo (ProjectsScreen.handle e st) = Some r ->
     ProjectsScreen.selectedRepo st = Some r \/
     (In r (ProjectsScreen.repositories st) /\
      ProjectsScreen.loading st = false /\
      error_shown (ProjectsScreen.error st) = None)).
Proof.
  unfold ProjectsScreen.handle, ProjectsScreen.view.
  destruct (ProjectsScreen.loading st) eqn:Hl; [repeat split; auto|].
  destruct (error_shown (ProjectsScreen.error st)) eqn:He; [repeat split; auto|].
  destruct e as [index| |].
  - destruct (nth_error (ProjectsScreen.repositories st) index) as [item|] eqn:Hn;
      [|repeat split; auto].
    repeat split; try assumption.
    intros r Hr. right. simpl in Hr. injection Hr as <-.
    repeat split; try assumption. eapply nth_error_In, Hn.
  - repeat split; try assumption. intros r Hr. discriminate.
  - repeat split; auto.
Qed.

Lemma fold_handle_invariant
    (events : list ProjectsScreen.Event) (st : ProjectsScreen.State) :
  let final := fold_left (fun s e => ProjectsScreen.handle e s) events st in
  ProjectsScreen.repositories final = ProjectsScreen.repositories st /\
  ProjectsScreen.loading final = ProjectsScreen.loading st /\
  ProjectsScreen.error final = ProjectsScreen.error st /\
  (forall r : Repository,
     ProjectsScreen.selectedRepo final = Some r ->
     ProjectsScreen.selectedRepo st = Some r \/
     (In r (ProjectsScreen.repositories st) /\
      ProjectsScreen.loading st = false /\
      error_shown (ProjectsScreen.error st) = None)).
Proof.
  cbv zeta. revert st.
  induction events as [|e events IH]; intros st; simpl.
  - repeat split; auto.
  - destruct (IH (ProjectsScreen.handle e st)) as (Hr & Hl & He & Hs).
    destruct (handle_keeps_list e st) as (Hr' & Hl' & He' & Hs').
    repeat split; try congruence.
    intros r Hsel. destruct (Hs r Hsel) as [H|(Hin & Hload & Herr)].
    + now apply Hs'.
    + right. rewrite <- Hr', <- Hl', <- He'. now repeat split.
Qed.

(** X14.  Whatever the user presses after the fetch of a mounted
    all-repositories screen has completed, the listed repositories, the
    loading flag and the error stay as the fetch left them, and a
    repository shown in the detail modal is one of the repositories the
    fetch delivered; after a failed fetch the modal never opens. *)
Theorem session_selection
    (reposFetch : Fetched (list Repository))
    (events : list ProjectsScreen.Event) :
  let fetched :=
    exec (ProjectsScreen.fetchRepositories reposFetch) ProjectsScreen.initial in
  let final := ProjectsScreen.session reposFetch events in
  ProjectsScreen.repositories final = ProjectsScreen.repositories fetched /\
  ProjectsScreen.loading final = false /\
  ProjectsScreen.error final = ProjectsScreen.error fetched /\
  (forall r : Repository,
     ProjectsScreen.selectedRepo final = Some r ->
     exists data : list Repository, reposFetch = success data /\ In r data) /\
  (failure reposFetch -> ProjectsScreen.modalVisible
                           (ProjectsScreen.selectedRepo final) = false).
Proof.
  cbv zeta. unfold ProjectsScreen.session.
  destruct (fold_handle_invariant events
              (exec (ProjectsScreen.fetchRepositories reposFetch)
                    ProjectsScreen.initial)) as (Hr & Hl & He & Hs).
  cbv zeta in Hr, Hl, He, Hs.
  assert (Hsel : forall r : Repository,
             ProjectsScreen.selectedRepo
               (fold_left (fun s e => ProjectsScreen.handle e s) events
                  (exec (ProjectsScreen.fetchRepositories reposFetch)
                        ProjectsScreen.initial)) = Some r ->
             exists data : list Repository, reposFetch = success data /\ In r data).
  { intros r Hsel. destruct (Hs r Hsel) as [H|(Hin & _ & Herr)].
    - destruct (fetched_cases reposFetch) as [Hf|[data ->]].
      + rewrite fetchRepositories_failure in H by assumption. discriminate.
      + rewrite fetchRepositories_success in H. discriminate.
    - destruct (fetched_cases reposFetch) as [Hf|[data ->]].
      + rewrite fetchRepositories_failure in Herr by assumption. discriminate.
      + exists data. split; [reflexivity|].
        rewrite fetchRepositories_success in Hin.
        eapply Permutation_in; [|exact Hin].
        apply Permutation_sym, sort_Permutation. }
  repeat split; try assumption.
  - rewrite Hl.
    destruct (fetched_cases reposFetch) as [Hf|[data ->]];
      [now rewrite fetchRepositories_failure | now rewrite fetchRepositories_success].
  - intros Hf.
    destruct (ProjectsScreen.selectedRepo _) as [r|] eqn:Hr'; [|reflexivity].
    destruct (Hsel r eq_refl) as (data & -> & _). inversion Hf.
Qed.

Lemma openedURLs_from (D : list Repository)
    (events : list ProjectsScreen.Event) (st : ProjectsScreen.State) :
  (forall r, ProjectsScreen.selectedRepo st = Some r -> In r D) ->
  (forall r, In r (ProjectsScreen.repositories st) -> In r D) ->
  forall url : string,
    In url (ProjectsScreen.openedURLs events st) ->
    url <> EmptyString /\ exists r, In r D /\ html_url r = value url.
Proof.
  revert st.
  induction events as [|e events IH]; intros st Hsel Hlist url Hin;
    [contradiction|].
  cbn [ProjectsScreen.openedURLs] in Hin.
  destruct (handle_keeps_list e st) as (Hr & _ & _ & Hs).
  assert (Hnext : forall u,
             In u (ProjectsScreen.openedURLs events (ProjectsScreen.handle e st)) ->
             u <> EmptyString /\ exists r, In r D /\ html_url r = value u).
  { apply IH.
    - intros r Hr'. destruct (Hs r Hr') as [H|(H & _)]; auto.
    - rewrite Hr. exact Hlist. }
  destruct (ProjectsScreen.opened e st) as [u|] eqn:Ho; [|now apply Hnext].
  destruct Hin as [<-|Hin]; [|now apply Hnext].
  unfold ProjectsScreen.opened in Ho.
  destruct (ProjectsScreen.view st); try discriminate.
  destruct e; try discriminate.
  unfold ProjectsScreen.viewOnGithub in Ho.
  destruct (ProjectsScreen.selectedRepo st) as [r|] eqn:Hr'; [|discriminate].
  cbn [optional_chain] in Ho.
  destruct (html_url r) as [| |u'] eqn:Hu; try discriminate.
  cbn [truthy_string] in Ho.
  destruct (String.eqb_spec u' EmptyString) as [->|Hne]; [discriminate|].
  injection Ho as <-.
  split; [assumption|]. exists r. split; [now apply Hsel|assumption].
Qed.

(** X16.  Every URL the all-repositories screen hands to the platform is
    the non-empty [html_url] of a repository the fetch delivered; after a
    failed fetch, and with no repository selected, it opens none. *)
Theorem session_opens_repository_urls
    (reposFetch : Fetched (list Repository))
    (events : list ProjectsScreen.Event) (url : string) :
  In url (ProjectsScreen.sessionURLs reposFetch events) ->
  url <> EmptyString /\
  exists (data : list Repository) (r : Repository),
    reposFetch = success data /\ In r data /\ html_url r = value url.
Proof.
  unfold ProjectsScreen.sessionURLs. intros Hin.
  destruct (fetched_cases reposFetch) as [Hf|[data ->]].
  - rewrite fetchRepositories_failure in Hin by assumption.
    apply (openedURLs_from [] events) in Hin.
    + destruct Hin as (_ & r & [] & _).
    + intros r H. discriminate H.
    + intros r H. exact H.
  - rewrite fetchRepositories_success in Hin.
    apply (openedURLs_from data events) in Hin.
    + destruct Hin as (Hne & r & Hr & Hu).
      split; [assumption|]. now exists data, r.
    + intros r H. discriminate H.
    + intros r H. cbn [ProjectsScreen.repositories] in H.
      eapply Permutation_in; [|exact H].
      apply Permutation_sym, sort_Permutation.
Qed.

Lemma session_opens_repository_urls_witness :
  In "https://github.com/idanDayani"%string
     (ProjectsScreen.sessionURLs (success sampleRepos)
        [ProjectsScreen.Press 0; ProjectsScreen.OpenOnGithub]) /\
  "https://github.com/idanDayani"%string <> EmptyString.
Proof.
  assert (H : In "https://github.com/idanDayani"%string
                (ProjectsScreen.sessionURLs (success sampleRepos)
                   [ProjectsScreen.Press 0; ProjectsScreen.OpenOnGithub]))
    by (left; reflexivity).
  split; [exact H|].
  apply (session_opens_repository_urls (success sampleRepos)
           [ProjectsScreen.Press 0; ProjectsScreen.OpenOnGithub]
           "https://github.com/idanDayani"%string H).
Defined.

(** ** The root layout *)

(** X15.  The root layout asks the splash screen to hide exactly when it
    renders its navigation stack: while the fonts are neither loaded nor
    failed it renders nothing and leaves the splash screen up. *)
Theorem splash_hidden_iff_stack_rendered
    (fontsLoaded : bool) (fontError : option string) :
  RootLayout.onLayoutRootView fontsLoaded fontError
  = RootLayout.rendersStack fontsLoaded fontError.
Proof.
  destruct fontsLoaded, fontError; reflexivity.
Qed.

(** ** More on sorting and the total *)

Lemma StronglySorted_app_cross {A : Type} (R : A -> A -> Prop) (l1 l2 : list A) :
  StronglySorted R (l1 ++ l2) ->
  forall a b : A, In a l1 -> In b l2 -> R a b.
Proof.
  induction l1 as [|x l1 IH]; simpl; intros Hs a b Ha Hb; [contradiction|].
  apply StronglySorted_inv in Hs. destruct Hs as [Hs Hall].
  destruct Ha as [<-|Ha].
  - rewrite Forall_forall in Hall. apply Hall, in_or_app. now right.
  - now apply IH.
Qed.

(** X9.  The top repositories of the profile screen are the ones with the
    most stars: the fetched list splits into the top list and a
    remainder, and no repository of the remainder has more stars than a
    repository of the top list. *)
Theorem top_repos_are_maximal
    (profileData : GitHubProfile) (reposData : list Repository)
    (counts : list Z) (st : ProfileScreen.State) :
  map stargazers_count reposData = map value counts ->
  exists rest : list Repository,
    Permutation reposData
      (ProfileScreen.topRepos
         (exec (ProfileScreen.fetchGitHubData (success profileData) (success reposData))
               st)
       ++ rest) /\
    forall a b : Repository,
      In a (ProfileScreen.topRepos
              (exec (ProfileScreen.fetchGitHubData
                       (success profileData) (success reposData)) st)) ->
      In b rest ->
      stars_ge a b.
Proof.
  intros H. rewrite fetchGitHubData_success. cbn [ProfileScreen.topRepos].
  exists (skipn 3 (sort ProfileScreen.compareStars reposData)).
  split.
  - rewrite firstn_skipn. apply sort_Permutation.
  - apply StronglySorted_app_cross. rewrite firstn_skipn.
    apply sort_descending. eapply counts_counted, H.
Qed.

Lemma top_repos_are_maximal_witness :
  map stargazers_count sampleRepos = map value [5; 0; 12; 5] /\
  exists rest : list Repository,
    Permutation sampleRepos
      (ProfileScreen.topRepos
         (exec (ProfileScreen.fetchGitHubData (success sampleProfile)
                  (success sampleRepos)) ProfileScreen.initial)
       ++ rest) /\
    forall a b : Repository,
      In a (ProfileScreen.topRepos
              (exec (ProfileScreen.fetchGitHubData
                       (success sampleProfile) (success sampleRepos))
                    ProfileScreen.initial)) ->
      In b rest ->
      stars_ge a b.
Proof.
  split; [reflexivity|].
  apply (top_repos_are_maximal sampleProfile sampleRepos [5; 0; 12; 5]).
  reflexivity.
Defined.

Lemma filter_insert (z : Z) (x : Repository) (arr : list Repository) :
  filter (has_stars z) (insert ProjectsScreen.compareStars x arr)
  = filter (has_stars z) (x :: arr).
Proof.
  induction arr as [|y rest IH]; [reflexivity|].
  cbn [insert].
  destruct (SortCompare ProjectsScreen.compareStars x y <=? 0) eqn:Hc;
    [reflexivity|].
  cbn [filter] in *. rewrite IH.
  destruct (has_stars z x) eqn:Hx, (has_stars z y) eqn:Hy; try reflexivity.
  exfalso.
  unfold has_stars in Hx, Hy.
  rewrite SortCompare_stars in Hc.
  destruct (stargazers_count x) as [| |zx]; try discriminate.
  destruct (stargazers_count y) as [| |zy]; try discriminate.
  apply Z.eqb_eq in Hx, Hy. subst. cbn [ToNumber] in Hc.
  apply Z.leb_gt in Hc. lia.
Qed.

(** X10.  When no fetched repository lacks its star count, sorting keeps
    the fetched order among repositories with equal star counts (the
    sort being stable, as ECMAScript requires): for every number of
    stars, the repositories with that many stars appear in the sorted
    list in the order the API delivered them. *)
Theorem sort_keeps_order_of_ties
    (data : list Repository) (z : Z) (st : ProjectsScreen.State) :
  forallb star_count_present data = true ->
  filter (has_stars z)
    (ProjectsScreen.repositories
       (exec (ProjectsScreen.fetchRepositories (success data)) st))
  = filter (has_stars z) data.
Proof.
  intros _.
  rewrite fetchRepositories_success. cbn [ProjectsScreen.repositories].
  induction data as [|x rest IH]; [reflexivity|].
  cbn [sort]. rewrite filter_insert. cbn [filter]. now rewrite IH.
Qed.

Lemma sort_keeps_order_of_ties_witness :
  forallb star_count_present sampleRepos = true /\
  map name
    (filter (has_stars 5)
       (ProjectsScreen.repositories
          (exec (ProjectsScreen.fetchRepositories (success sampleRepos))
                ProjectsScreen.initial)))
  = [value "alpha"; value "delta"]%string.
Proof.
  split; [reflexivity|].
  rewrite (sort_keeps_order_of_ties sampleRepos 5 ProjectsScreen.initial eq_refl).
  reflexivity.
Defined.

(** X11.  A list the API delivers already descending by star count is
    shown as delivered: sorting leaves it unchanged. *)
Theorem descending_list_unchanged
    (data : list Repository) (st : ProjectsScreen.State) :
  StronglySorted stars_ge data ->
  ProjectsScreen.repositories
    (exec (ProjectsScreen.fetchRepositories (success data)) st)
  = data.
Proof.
  intros Hs. rewrite fetchRepositories_success. cbn [ProjectsScreen.repositories].
  induction Hs as [|x rest Hs IH Hall]; [reflexivity|].
  cbn [sort]. rewrite IH.
  destruct rest as [|y rest']; [reflexivity|].
  cbn [insert].
  destruct (Forall_inv Hall) as (zx & zy & Hx & Hy & Hle).
  rewrite SortCompare_stars, Hx, Hy. cbn [ToNumber].
  destruct (Z.leb_spec zy zx); [reflexivity|lia].
Qed.

Lemma descending_list_unchanged_witness :
  StronglySorted stars_ge (sort ProjectsScreen.compareStars sampleRepos) /\
  ProjectsScreen.repositories
    (exec (ProjectsScreen.fetchRepositories
             (success (sort ProjectsScreen.compareStars sampleRepos)))
          ProjectsScreen.initial)
  = sort ProjectsScreen.compareStars sampleRepos.
Proof.
  assert (H : StronglySorted stars_ge (sort ProjectsScreen.compareStars sampleRepos)).
  { apply sort_descending. apply (counts_counted sampleRepos [5; 0; 12; 5]).
    reflexivity. }
  split; [exact H|].
  apply (descending_list_unchanged
           (sort ProjectsScreen.compareStars sampleRepos) ProjectsScreen.initial H).
Defined.

Lemma reduce_addStars_NaN (repos : list Repository) :
  reduce ProfileScreen.addStars NaN repos = NaN.
Proof.
  unfold reduce. induction repos as [|r repos IH]; [reflexivity|exact IH].
Qed.

Lemma add_NaN_r (a : Number) : add a NaN = NaN.
Proof. destruct a; reflexivity. Qed.

Lemma reduce_addStars_absent (repos : list Repository) :
  forallb star_count_present repos = false ->
  forall acc : Number, reduce ProfileScreen.addStars acc repos = NaN.
Proof.
  pose proof reduce_addStars_NaN as HNaN. unfold reduce in *.
  induction repos as [|r repos IH]; intros H acc; [discriminate|].
  cbn [forallb] in H. cbn [fold_left].
  destruct (star_count_present r) eqn:Hr.
  - apply IH. exact H.
  - unfold star_count_present in Hr.
    unfold ProfileScreen.addStars at 2.
    destruct (stargazers_count r); try discriminate.
    cbn [ToNumber]. rewrite add_NaN_r. apply HNaN.
Qed.


Lemma present_Permutation (l l' : list Repository) :
  Permutation l l' ->
  forallb star_count_present l = forallb star_count_present l'.
Proof.
  intros H.
  destruct (forallb star_count_present l) eqn:Hl,
           (forallb star_count_present l') eqn:Hl'; try reflexivity.
  - rewrite forallb_forall in Hl.
    assert (Ht : forallb star_count_present l' = true).
    { apply forallb_forall. intros r Hr. apply Hl.
      eapply Permutation_in; [apply Permutation_sym, H|exact Hr]. }
    congruence.
  - rewrite forallb_forall in Hl'.
    assert (Ht : forallb star_count_present l = true).
    { apply forallb_forall. intros r Hr. apply Hl'.
      eapply Permutation_in; [exact H|exact Hr]. }
    congruence.
Qed.

Lemma stars_Permutation (l l' : list Repository) :
  Permutation l l' ->
  stars_sum l = stars_sum l' /\ stars_magnitude l = stars_magnitude l'.
Proof.
  unfold stars_sum, stars_magnitude.
  induction 1 as [|x l l' _ [IH1 IH2]|x y l|l l' l'' _ [IH1 IH2] _ [IH3 IH4]];
    simpl; split; lia.
Qed.

Lemma total_Permutation (l l' : list Repository) :
  Permutation l l' ->
  stars_magnitude l <= MAX_EXACT ->
  reduce ProfileScreen.addStars (Num 0) l = reduce ProfileScreen.addStars (Num 0) l'.
Proof.
  intros H Hb.
  destruct (stars_Permutation l l' H) as [Hsum Hmag].
  pose proof (present_Permutation l l' H) as Hp.
  destruct (forallb star_count_present l) eqn:Hl.
  - rewrite !reduce_addStars_exact; try (simpl; lia); try congruence.
  - rewrite !reduce_addStars_absent; congruence.
Qed.

(** X12.  While the magnitudes of the star counts add up to at most 2^53,
    the total star count does not depend on the order of the fetched
    repositories; in particular summing the list after it has been
    sorted gives the total the screen computes before sorting.  (This
    includes the lists with an absent count, whose total is no number in
    any order.) *)
Theorem total_stars_order_independent
    (profileData : GitHubProfile) (reposData reposData' : list Repository)
    (st : ProfileScreen.State) :
  Permutation reposData reposData' ->
  stars_magnitude reposData <= MAX_EXACT ->
  ProfileScreen.totalStars
    (exec (ProfileScreen.fetchGitHubData (success profileData) (success reposData)) st)
  = ProfileScreen.totalStars
      (exec (ProfileScreen.fetchGitHubData (success profileData) (success reposData'))
            st)
  /\
  reduce ProfileScreen.addStars (Num 0) (sort ProfileScreen.compareStars reposData)
  = ProfileScreen.totalStars
      (exec (ProfileScreen.fetchGitHubData (success profileData) (success reposData))
            st).
Proof.
  intros H Hb. rewrite !fetchGitHubData_success. cbn [ProfileScreen.totalStars].
  split.
  - now apply total_Permutation.
  - symmetry. apply total_Permutation; [apply sort_Permutation|exact Hb].
Qed.

Lemma total_stars_order_independent_witness :
  Permutation sampleRepos (rev sampleRepos) /\
  stars_magnitude sampleRepos <= MAX_EXACT /\
  ProfileScreen.totalStars
    (exec (ProfileScreen.fetchGitHubData (success sampleProfile) (success sampleRepos))
          ProfileScreen.initial)
  = ProfileScreen.totalStars
      (exec (ProfileScreen.fetchGitHubData (success sampleProfile)
               (success (rev sampleRepos)))
            ProfileScreen.initial).
Proof.
  assert (Hb : stars_magnitude sampleRepos <= MAX_EXACT)
    by (apply Z.leb_le; reflexivity).
  split; [apply Permutation_rev|]. split; [exact Hb|].
  apply (total_stars_order_independent sampleProfile sampleRepos (rev sampleRepos)
           ProfileScreen.initial (Permutation_rev sampleRepos) Hb).
Defined.

